(** * radioClass.py: the Radio data model and its dict encodings

    A shallow embedding of [src/radioClass.py]: the [RadioState]
    enumeration, the [Radio] object with its constructor and its four
    methods, and the properties of the encodings.

    Python values are dynamically typed, so a field of a Radio holds a
    [pyval]; dicts with string keys are finite maps [gmap string pyval];
    a method that assigns to [self] takes the object and returns the
    result together with the object after the call; a subscript [d[k]]
    on a dict either returns or raises [KeyError]. *)

From Stdlib Require Import ZArith.
From stdpp Require Import base decidable option list strings gmap fin_maps.

Local Open Scope string_scope.
Local Open Scope Z_scope.

(** ** Python values *)

(** The values that travel through the config file and the client status:
    [None], booleans, integers, strings and lists of those. *)
#[warnings="-register-all"] Inductive pyval : Type :=
  | VNone
  | VBool (b : bool)
  | VInt (z : Z)
  | VStr (s : string)
  | VList (l : list pyval).

(** What an expression evaluates to: a value, or a raised exception.
    The only exception this file can raise by itself is the [KeyError] of
    a dict subscript, which carries the key that was looked up. *)
Inductive exn : Type :=
  | KeyError (key : string).

Inductive result (A : Type) : Type :=
  | Ok (a : A)
  | Raise (e : exn).
Arguments Ok {A} a.
Arguments Raise {A} e.

Definition bind {A B : Type} (m : result A) (k : A -> result B) : result B :=
  match m with
  | Ok a => k a
  | Raise e => Raise e
  end.

Notation "'let?' x ':=' m 'in' k" := (bind m (fun x => k))
  (at level 10, x name, m at level 100, k at level 200).

(** A dict display [{k1: v1, ..., kn: vn}]: the items are stored from left
    to right, so a later item replaces an earlier one with the same key. *)
Definition dict_display (items : list (string * pyval)) : gmap string pyval :=
  foldl (fun d kv => <[kv.1 := kv.2]> d) ∅ items.

(** The subscript [d[k]] of a dict. *)
Definition getitem (d : gmap string pyval) (k : string) : result pyval :=
  match d !! k with
  | Some v => Ok v
  | None => Raise (KeyError k)
  end.

(** ** Enum classes *)

Module Enum.

(** The body of an [Enum] class: its assignments [name = value], in
    source order. *)
Definition body : Type := list (string * Z).

(** The value a name is assigned in the body. *)
Definition declared (b : body) (n : string) : option Z :=
  snd <$> find (fun nv => bool_decide (nv.1 = n)) b.

(** The member that owns a value: the first name that was assigned it
    (what [_value2member_map_] holds). *)
Definition value2member (b : body) (v : Z) : option string :=
  fst <$> find (fun nv => bool_decide (nv.2 = v)) b.

(** The attribute [Cls.n] (what [_member_map_] holds): a name assigned a
    value that an earlier name already has creates no member, it is an
    alias of that earlier member. The result is the member's own name. *)
Definition getattr (b : body) (n : string) : option string :=
  declared b n ≫= value2member b.

(** The members, in definition order: the names that are not aliases. *)
Definition members (b : body) : list (string * Z) :=
  filter (fun nv => value2member b nv.2 = Some nv.1) b.

End Enum.

(** ** RadioState *)

Module RadioState.

(** The class body, lines 8 to 16 of the source. *)
Definition class_body : Enum.body :=
  [ ("Disconnected", 0); ("Idle", 0); ("Receiving", 1); ("Transmitting", 2);
    ("ConnectError", 10); ("TransmitError", 11); ("ReceiveError", 12);
    ("UnknownError", 20) ].

(** The member objects of the class. *)
Inductive t : Type :=
  | Disconnected
  | Receiving
  | Transmitting
  | ConnectError
  | TransmitError
  | ReceiveError
  | UnknownError.

#[global] Instance t_eq_dec : EqDecision t.
Proof. solve_decision. Defined.

(** The attribute [.name] of a member. *)
Definition name (s : t) : string :=
  match s with
  | Disconnected => "Disconnected"
  | Receiving => "Receiving"
  | Transmitting => "Transmitting"
  | ConnectError => "ConnectError"
  | TransmitError => "TransmitError"
  | ReceiveError => "ReceiveError"
  | UnknownError => "UnknownError"
  end.

(** The attribute [.value] of a member. *)
Definition value (s : t) : Z :=
  match s with
  | Disconnected => 0
  | Receiving => 1
  | Transmitting => 2
  | ConnectError => 10
  | TransmitError => 11
  | ReceiveError => 12
  | UnknownError => 20
  end.

(** Iterating over the class. *)
Definition all : list t :=
  [ Disconnected; Receiving; Transmitting; ConnectError; TransmitError;
    ReceiveError; UnknownError ].

Definition of_name (n : string) : option t :=
  find (fun s => bool_decide (name s = n)) all.

(** The class attribute [RadioState.n]. *)
Definition getattr (n : string) : option t :=
  Enum.getattr class_body n ≫= of_name.

End RadioState.

(** ** Radio *)

Module Radio.

(** The attributes of a Radio object. [__init__] creates all of them and
    no method adds or deletes one, so an object is a record. Every
    attribute can be assigned any value from outside, except that
    [state] is kept to members of [RadioState]: the methods read
    [self.state.value] and [self.state.name]. *)
Record t : Type := mk {
  name : pyval;
  desc : pyval;
  ctrlMode : pyval;
  ctrlPort : pyval;
  txDev : pyval;
  rxDev : pyval;
  sigMode : pyval;
  sigId : pyval;
  zone : pyval;
  chan : pyval;
  lastid : pyval;
  muted : pyval;
  error : pyval;
  scanning : pyval;
  talkaround : pyval;
  monitor : pyval;
  lowpower : pyval;
  state : RadioState.t
}.

(** The assignment [self.error = v]. *)
Definition set_error (v : pyval) (self : t) : t :=
  {| name := name self; desc := desc self; ctrlMode := ctrlMode self;
     ctrlPort := ctrlPort self; txDev := txDev self; rxDev := rxDev self;
     sigMode := sigMode self; sigId := sigId self;
     zone := zone self; chan := chan self; lastid := lastid self;
     muted := muted self; error := v; scanning := scanning self;
     talkaround := talkaround self; monitor := monitor self;
     lowpower := lowpower self; state := state self |}.

(** The assignment [r.state = s], done by the code that drives the
    radio. *)
Definition set_state (s : RadioState.t) (self : t) : t :=
  {| name := name self; desc := desc self; ctrlMode := ctrlMode self;
     ctrlPort := ctrlPort self; txDev := txDev self; rxDev := rxDev self;
     sigMode := sigMode self; sigId := sigId self;
     zone := zone self; chan := chan self; lastid := lastid self;
     muted := muted self; error := error self; scanning := scanning self;
     talkaround := talkaround self; monitor := monitor self;
     lowpower := lowpower self; state := s |}.

(** The class attributes [controlModes] and [signallingModes]. No
    method reads them. *)
Definition controlModes : list string :=
  [ "None"; "SB9600-XTL-O"; "SB9600-XTL-W"; "SB9600-SPECTRA"; "SB9600-MCS";
    "Soundcard-CM108"; "Soundcard-VOX" ].

Definition signallingModes : list string :=
  [ "None"; "MDC"; "ANI"; "Singletone"; "QCII" ].

(** [Radio(name, desc=None, ..., signalId=None)]: an optional argument
    that the call leaves out is [None] here and takes its default. *)
Definition __init__ (name : pyval)
    (desc ctrlMode ctrlPort txDev rxDev signalMode signalId : option pyval)
    : t :=
  {| name := name;
     desc := default VNone desc;
     ctrlMode := default VNone ctrlMode;
     ctrlPort := default VNone ctrlPort;
     txDev := default VNone txDev;
     rxDev := default VNone rxDev;
     sigMode := default VNone signalMode;
     sigId := default VNone signalId;
     zone := VStr "";
     chan := VStr "";
     lastid := VStr "";
     muted := VBool false;
     error := VBool false;
     scanning := VBool false;
     talkaround := VBool false;
     monitor := VBool false;
     lowpower := VBool false;
     state := RadioState.Disconnected |}.

(** [getState]: the pair it returns, and [self] after the call. *)
Definition getState (self : t) : (RadioState.t * string) * t :=
  if RadioState.value (state self) <? 10 then
    let stateString := RadioState.name (state self) in
    let self := set_error (VBool false) self in
    ((state self, stateString), self)
  else
    let self := set_error (VBool true) self in
    let stateString :=
      if decide (state self = RadioState.ConnectError) then
        "Connection Error"
      else if decide (state self = RadioState.TransmitError) then
        "Transmit Error"
      else if decide (state self = RadioState.ReceiveError) then
        "Receive Error"
      else
        "Unknown Error" in
    ((state self, stateString), self).

(** [encodeClientStatus]: the dict it returns, and [self] after the
    call. *)
Definition encodeClientStatus (self : t) : gmap string pyval * t :=
  let '((state, stateString), self) := getState self in
  let '(stateText, errorText) :=
    if RadioState.value state >=? 10 then ("Error", stateString)
    else (stateString, "") in
  let clientStatus := dict_display
    [ ("name", name self);
      ("zone", zone self);
      ("chan", chan self);
      ("lastid", lastid self);
      ("state", VStr stateText);
      ("muted", muted self);
      ("error", error self);
      ("errorText", VStr errorText);
      ("scanning", scanning self);
      ("talkaround", talkaround self);
      ("monitor", monitor self);
      ("lowpower", lowpower self) ] in
  (clientStatus, self).

(** [encodeConfig]: the dict it returns, and [self] after the call. *)
Definition encodeConfig (self : t) : gmap string pyval * t :=
  let config := dict_display
    [ ("name", name self);
      ("desc", desc self);
      ("ctrlMode", ctrlMode self);
      ("ctrlPort", ctrlPort self);
      ("txDevice", txDev self);
      ("rxDevice", rxDev self);
      ("sigMode", sigMode self);
      ("sigId", sigId self) ] in
  (config, self).

(** [decodeConfig] has no [self]: it is called on the class. The
    arguments of the constructor call are evaluated from left to right,
    so the first subscript whose key is missing raises. *)
Definition decodeConfig (radioDict : gmap string pyval) : result t :=
  let? a_name := getitem radioDict "name" in
  let? a_desc := getitem radioDict "desc" in
  let? a_ctrlMode := getitem radioDict "ctrlMode" in
  let? a_ctrlPort := getitem radioDict "ctrlPort" in
  let? a_txDevice := getitem radioDict "txDevice" in
  let? a_rxDevice := getitem radioDict "rxDevice" in
  let? a_sigMode := getitem radioDict "sigMode" in
  let? a_sigId := getitem radioDict "sigId" in
  Ok (__init__ a_name (Some a_desc) (Some a_ctrlMode) (Some a_ctrlPort)
        (Some a_txDevice) (Some a_rxDevice) (Some a_sigMode) (Some a_sigId)).

End Radio.

(** ** The vocabulary of the specification *)

Import Radio.

(** The eight keys of a config dict, in the order [decodeConfig] reads
    them, and the config attributes of a Radio in the same order. *)
Definition config_keys : list string :=
  [ "name"; "desc"; "ctrlMode"; "ctrlPort"; "txDevice"; "rxDevice";
    "sigMode"; "sigId" ].

Definition config_fields (r : Radio.t) : list pyval :=
  [ name r; desc r; ctrlMode r; ctrlPort r; txDev r; rxDev r; sigMode r;
    sigId r ].

(** The runtime-status attributes, their names, and their values in a new
    Radio. *)
Definition status_keys : list string :=
  [ "zone"; "chan"; "lastid"; "muted"; "error"; "scanning"; "talkaround";
    "monitor"; "lowpower" ].

Definition status_fields (r : Radio.t) : list pyval * RadioState.t :=
  ([ zone r; chan r; lastid r; muted r; error r; scanning r; talkaround r;
     monitor r; lowpower r ], state r).

Definition status_defaults : list pyval * RadioState.t :=
  ([ VStr ""; VStr ""; VStr ""; VBool false; VBool false; VBool false;
     VBool false; VBool false; VBool false ], RadioState.Disconnected).

(** Every attribute except [error]. *)
Definition fields_but_error (r : Radio.t)
    : list pyval * list pyval * RadioState.t :=
  (config_fields r,
   [ zone r; chan r; lastid r; muted r; scanning r; talkaround r; monitor r;
     lowpower r ],
   state r).

(** The label the specification gives to the variant spelled [n] with
    value [v]: below 10 the name as spelled, from 10 on one of four fixed
    strings chosen by the variant. *)
Definition reference_label (n : string) (v : Z) : string :=
  if v <? 10 then n
  else if decide (n = "ConnectError") then "Connection Error"
  else if decide (n = "TransmitError") then "Transmit Error"
  else if decide (n = "ReceiveError") then "Receive Error"
  else "Unknown Error".

(** Sample objects: the Radio of the specification's scenarios, and one
    whose status attributes have all been changed. *)
Definition radio_R1 : Radio.t :=
  __init__ (VStr "R1") None None None None None None None.

Definition radio_busy : Radio.t :=
  {| name := VStr "Base"; desc := VStr "Base station";
     ctrlMode := VStr "SB9600-XTL-O"; ctrlPort := VStr "/dev/ttyUSB0";
     txDev := VInt 3; rxDev := VInt 4; sigMode := VStr "MDC";
     sigId := VList [VInt 1; VStr "a"];
     zone := VStr "Z1"; chan := VStr "CH 4"; lastid := VStr "1234";
     muted := VBool true; error := VBool true; scanning := VBool true;
     talkaround := VBool true; monitor := VBool true; lowpower := VBool true;
     state := RadioState.ReceiveError |}.

(** The config dict of the specification's decoding scenario. *)
Definition config_R2 : gmap string pyval :=
  dict_display
    [ ("name", VStr "R2"); ("desc", VNone); ("ctrlMode", VStr "None");
      ("ctrlPort", VNone); ("txDevice", VNone); ("rxDevice", VNone);
      ("sigMode", VStr "None"); ("sigId", VNone) ].

(** The twelve keys of a client status dict, in the order of the dict
    display of [encodeClientStatus]; the nine of them that hold an
    attribute as it is; and the names under which the other config
    attributes could appear. *)
Definition client_keys : list string :=
  [ "name"; "zone"; "chan"; "lastid"; "state"; "muted"; "error"; "errorText";
    "scanning"; "talkaround"; "monitor"; "lowpower" ].

Definition client_copied_keys : list string :=
  [ "name"; "zone"; "chan"; "lastid"; "muted"; "scanning"; "talkaround";
    "monitor"; "lowpower" ].

Definition client_copied_fields (r : Radio.t) : list pyval :=
  [ name r; zone r; chan r; lastid r; muted r; scanning r; talkaround r;
    monitor r; lowpower r ].

Definition config_only_keys : list string :=
  [ "desc"; "ctrlMode"; "ctrlPort"; "txDev"; "rxDev"; "txDevice"; "rxDevice";
    "sigMode"; "sigId" ].

(** The first config key, in the order [decodeConfig] reads them, that a
    dict does not have. *)
Definition first_missing (m : gmap string pyval) : option string :=
  find (fun k => bool_decide (m !! k = None)) config_keys.

(** The config dict of the scenario with a status key added to it, as a
    hand-edited config file could have. *)
Definition config_R2_zone : gmap string pyval :=
  <["zone" := VStr "Z9"]> config_R2.

(** ** The enumeration *)

(** The member objects are the ones the class body creates. *)
Lemma RadioState_members :
  (fun s => (RadioState.name s, RadioState.value s)) <$> RadioState.all
  = Enum.members RadioState.class_body.
Proof. reflexivity. Qed.

Lemma RadioState_all_complete (s : RadioState.t) : s ∈ RadioState.all.
Proof. destruct s; unfold RadioState.all; set_solver. Qed.

(** A state is an error state or a normal state, never both. *)
Lemma value_range (s : RadioState.t) :
  (0 <= RadioState.value s < 10) \/ (10 <= RadioState.value s <= 20).
Proof. destruct s; simpl; lia. Qed.

(** ** getState *)

(** Case analysis on a Radio: its attributes, and each member its state
    can be. *)
Ltac radio_cases r :=
  let st := fresh "st" in
  destruct r as [? ? ? ? ? ? ? ? ? ? ? ? ? ? ? ? ? st]; destruct st.

(** The object after [getState] is the object before it with [error]
    assigned. *)
Lemma getState_self (r : Radio.t) :
  (getState r).2 = set_error (VBool (10 <=? RadioState.value (state r))) r.
Proof. radio_cases r; reflexivity. Qed.

Lemma getState_state (r : Radio.t) : (getState r).1.1 = state r.
Proof. radio_cases r; reflexivity. Qed.

(** The label depends on the state alone. *)
Lemma getState_label_state (r r' : Radio.t) :
  state r = state r' -> (getState r).1.2 = (getState r').1.2.
Proof.
  destruct r, r'; simpl; intros ->.
  match goal with |- context [mk _ _ _ _ _ _ _ _ _ _ _ _ _ _ _ _ _ ?s] =>
    destruct s end; reflexivity.
Qed.

(** The label of each member. *)
Lemma getState_label (r : Radio.t) :
  (getState r).1.2 =
    match state r with
    | RadioState.ConnectError => "Connection Error"
    | RadioState.TransmitError => "Transmit Error"
    | RadioState.ReceiveError => "Receive Error"
    | RadioState.UnknownError => "Unknown Error"
    | s => RadioState.name s
    end.
Proof. radio_cases r; reflexivity. Qed.

(** For every name of the class body but [Idle], the label is the one the
    specification gives to that name. *)
Lemma getState_label_reference (n : string) (v : Z) (s : RadioState.t)
    (r : Radio.t) :
  (n, v) ∈ RadioState.class_body -> n <> "Idle" ->
  RadioState.getattr n = Some s ->
  (getState (set_state s r)).1.2 = reference_label n v.
Proof.
  intros Hin Hn Hs. rewrite getState_label. simpl.
  unfold RadioState.class_body in Hin.
  repeat (apply elem_of_cons in Hin; destruct Hin as [Hin | Hin];
          [ injection Hin as -> ->; try congruence;
            vm_compute in Hs; injection Hs as <-; reflexivity | ]).
  by apply elem_of_nil in Hin.
Qed.

(** With [Idle] included the specification's labels are not the ones
    [getState] returns. *)
Lemma getState_label_reference_Idle :
  ~ (forall (n : string) (v : Z) (s : RadioState.t) (r : Radio.t),
       (n, v) ∈ RadioState.class_body ->
       RadioState.getattr n = Some s ->
       (getState (set_state s r)).1.2 = reference_label n v).
Proof.
  intros H.
  specialize (H "Idle" 0 RadioState.Disconnected radio_R1).
  discriminate H; [unfold RadioState.class_body; set_solver | reflexivity].
Qed.

(** C2, at the input where the code departs from the claim. The class
    attribute [RadioState.Idle] is a member, and a Radio whose state was
    set to it gets the label "Disconnected" from [getState], for every
    value of the other attributes; the label the claim gives to the
    variant spelled Idle is "Idle". *)
Theorem getState_label_Idle (r : Radio.t) :
  exists s : RadioState.t,
    RadioState.getattr "Idle" = Some s
    /\ (getState (set_state s r)).1 = (RadioState.Disconnected, "Disconnected")
    /\ reference_label "Idle" 0 = "Idle"
    /\ (getState (set_state s r)).1.2 <> reference_label "Idle" 0.
Proof.
  exists RadioState.Disconnected. destruct r. repeat split. discriminate.
Qed.

(** C3: [Idle] and [Disconnected] are assigned the same value 0 and are
    one member: the two class attributes are the same object, it compares
    equal to [Disconnected], a Radio whose state is set to [Idle] holds
    [Disconnected], and [getState] on it returns the label
    "Disconnected". *)
Theorem Idle_is_Disconnected (r : Radio.t) :
  Enum.declared RadioState.class_body "Idle" = Some 0
  /\ Enum.declared RadioState.class_body "Disconnected" = Some 0
  /\ RadioState.getattr "Idle" = RadioState.getattr "Disconnected"
  /\ exists s : RadioState.t,
       RadioState.getattr "Idle" = Some s
       /\ RadioState.value s = 0
       /\ bool_decide (s = RadioState.Disconnected) = true
       /\ state (set_state s r) = RadioState.Disconnected
       /\ (getState (set_state s r)).1
          = (RadioState.Disconnected, "Disconnected").
Proof.
  do 3 (split; [reflexivity |]).
  exists RadioState.Disconnected. destruct r. repeat split.
Qed.

(** C4: after [getState] the [error] attribute is [True] when the value
    of the state is at least 10 and [False] when it is below 10. *)
Theorem getState_error (r : Radio.t) :
  (10 <= RadioState.value (state r) /\ error (getState r).2 = VBool true)
  \/ (RadioState.value (state r) < 10 /\ error (getState r).2 = VBool false).
Proof.
  rewrite getState_self. simpl.
  destruct (Z.leb_spec 10 (RadioState.value (state r))); [left | right];
    split; done.
Qed.

(** C7: a Radio built from any arguments stores them as they are, [None]
    for an optional argument that was left out; its status attributes are
    the defaults, its state is [Disconnected], and [getState] called next
    leaves [error] at [False]. *)
Theorem init_defaults (n : pyval) (d cm cp tx rx sm si : option pyval) :
  let r := __init__ n d cm cp tx rx sm si in
  config_fields r
    = [ n; default VNone d; default VNone cm; default VNone cp;
        default VNone tx; default VNone rx; default VNone sm;
        default VNone si ]
  /\ (zone r = VStr "" /\ chan r = VStr "" /\ lastid r = VStr "")
  /\ (muted r = VBool false /\ error r = VBool false
      /\ scanning r = VBool false /\ talkaround r = VBool false
      /\ monitor r = VBool false /\ lowpower r = VBool false)
  /\ state r = RadioState.Disconnected
  /\ status_fields r = status_defaults
  /\ (getState r).1 = (RadioState.Disconnected, "Disconnected")
  /\ error (getState r).2 = VBool false.
Proof. intros r. subst r. repeat split. Qed.

(** C10: [getState] called again on an object whose state is still the
    one of the first call, whatever happened to the other attributes in
    between, returns the same pair and leaves [error] as the first call
    left it; called again at once it changes nothing at all. *)
Theorem getState_idempotent (r r' : Radio.t) :
  let after := (getState r).2 in
  let again := getState (set_state (state after) r') in
  again.1 = (getState r).1
  /\ error again.2 = error after
  /\ getState after = ((getState r).1, after).
Proof.
  intros after again. subst after again.
  destruct r'. radio_cases r; repeat split.
Qed.

(** ** The client status *)

(** C5: in the dict of [encodeClientStatus] the key "state" holds "Error"
    exactly when the value of the state is at least 10; then "errorText"
    holds the label of [getState], and otherwise "state" holds that label
    and "errorText" the empty string. *)
Theorem encodeClientStatus_state (r : Radio.t) :
  let d := (encodeClientStatus r).1 in
  let label := (getState r).1.2 in
  (d !! "state" = Some (VStr "Error") <-> 10 <= RadioState.value (state r))
  /\ ((10 <= RadioState.value (state r)
       /\ d !! "state" = Some (VStr "Error")
       /\ d !! "errorText" = Some (VStr label))
      \/ (RadioState.value (state r) < 10
       /\ d !! "state" = Some (VStr label)
       /\ d !! "errorText" = Some (VStr ""))).
Proof.
  intros d label. subst d label.
  radio_cases r;
    (split;
     [ split; [ intros H; vm_compute in H; (discriminate H || (simpl; lia))
              | intros H; simpl in H; (lia || reflexivity) ]
     | (left; repeat split; simpl; lia) || (right; repeat split; simpl; lia) ]).
Qed.

(** C9: [getState] and [encodeClientStatus] both return, for every state
    the Radio holds, and the object after the call differs from the
    object before it in [error] at most. *)
Theorem status_queries_frame (r : Radio.t) :
  (exists res r', getState r = (res, r')
     /\ fields_but_error r' = fields_but_error r)
  /\ (exists d r', encodeClientStatus r = (d, r')
        /\ r' = (getState r).2
        /\ fields_but_error r' = fields_but_error r).
Proof.
  split.
  - exists (getState r).1, (getState r).2. split.
    + by destruct (getState r).
    + rewrite getState_self. reflexivity.
  - exists (encodeClientStatus r).1, (encodeClientStatus r).2. split.
    + by destruct (encodeClientStatus r).
    + radio_cases r; split; reflexivity.
Qed.

(** ** The configuration *)

Lemma getitem_Some (m : gmap string pyval) (k : string) (v : pyval) :
  m !! k = Some v -> getitem m k = Ok v.
Proof. unfold getitem. by intros ->. Qed.

Lemma getitem_None (m : gmap string pyval) (k : string) :
  m !! k = None -> getitem m k = Raise (KeyError k).
Proof. unfold getitem. by intros ->. Qed.

(** Each config key of the dict of [encodeConfig] holds its attribute. *)
Lemma encodeConfig_lookup (r : Radio.t) :
  (fun k => (encodeConfig r).1 !! k) <$> config_keys
  = Some <$> config_fields r.
Proof. destruct r. reflexivity. Qed.

(** C8: [encodeConfig] leaves the object as it was; the keys of its dict
    are the eight config keys, so no status key and no "state" key is
    among them; each key holds its attribute, and the dict is the same
    whatever the status attributes and the state are. *)
Theorem encodeConfig_pure (r : Radio.t) :
  let d := (encodeConfig r).1 in
  (encodeConfig r).2 = r
  /\ dom d = list_to_set config_keys
  /\ Forall (fun k => d !! k = None) ("state" :: status_keys)
  /\ (fun k => d !! k) <$> config_keys = Some <$> config_fields r
  /\ forall (z c l m e sc ta mo lp : pyval) (st : RadioState.t),
       (encodeConfig
          (mk (name r) (desc r) (ctrlMode r) (ctrlPort r) (txDev r) (rxDev r)
              (sigMode r) (sigId r) z c l m e sc ta mo lp st)).1 = d.
Proof.
  intros d. subst d. split; [reflexivity |]. split.
  { unfold encodeConfig, dict_display, config_keys. simpl.
    rewrite !dom_insert_L, dom_empty_L. set_solver. }
  split.
  { destruct r. unfold status_keys. repeat constructor. }
  split; [apply encodeConfig_lookup | reflexivity].
Qed.

(** C1: decoding the dict of [encodeConfig] succeeds; the Radio it builds
    has the config attributes of the encoded one and the default status
    attributes, whatever the status of the encoded one was. *)
Theorem decodeConfig_encodeConfig (r : Radio.t) :
  exists r' : Radio.t,
    decodeConfig (encodeConfig r).1 = Ok r'
    /\ config_fields r' = config_fields r
    /\ status_fields r' = status_defaults.
Proof.
  exists (__init__ (name r) (Some (desc r)) (Some (ctrlMode r))
            (Some (ctrlPort r)) (Some (txDev r)) (Some (rxDev r))
            (Some (sigMode r)) (Some (sigId r))).
  destruct r. repeat split.
Qed.

(** [decodeConfig] by cases on the eight lookups: the first missing key
    is raised, and with none missing the constructor is called on the
    eight values. *)
Lemma decodeConfig_cases (m : gmap string pyval) :
  (exists k, k ∈ config_keys /\ m !! k = None
             /\ decodeConfig m = Raise (KeyError k))
  \/ (exists n d cm cp tx rx sm si,
        (fun k => m !! k) <$> config_keys
          = Some <$> [n; d; cm; cp; tx; rx; sm; si]
        /\ decodeConfig m
           = Ok (__init__ n (Some d) (Some cm) (Some cp) (Some tx) (Some rx)
                   (Some sm) (Some si))).
Proof.
  unfold decodeConfig, config_keys. simpl.
  repeat match goal with
  | |- context [getitem m ?k] =>
      let E := fresh "E" in
      destruct (m !! k) eqn:E;
        [ rewrite (getitem_Some _ _ _ E); simpl
        | left; exists k; rewrite (getitem_None _ _ E); simpl;
          split; [set_solver | split; [assumption | reflexivity]] ]
  end.
  right. do 8 eexists. split; reflexivity.
Qed.

(** C6: [decodeConfig] raises [KeyError] exactly when one of the eight
    config keys is missing from the dict, and then for a missing key;
    with all eight present it returns a Radio whose config attributes
    are the eight values of the dict as they are, [None] included, and
    whose status attributes are the defaults. *)
Theorem decodeConfig_KeyError (m : gmap string pyval) :
  ((exists k, decodeConfig m = Raise (KeyError k))
   <-> Exists (fun k => m !! k = None) config_keys)
  /\ ((Exists (fun k => m !! k = None) config_keys
       /\ exists k, k ∈ config_keys /\ m !! k = None
                    /\ decodeConfig m = Raise (KeyError k))
      \/ (Forall (fun k => is_Some (m !! k)) config_keys
          /\ exists r : Radio.t,
               decodeConfig m = Ok r
               /\ Some <$> config_fields r = (fun k => m !! k) <$> config_keys
               /\ status_fields r = status_defaults)).
Proof.
  destruct (decodeConfig_cases m)
    as [(k & Hk & Hm & Hd) | (n & d & cm & cp & tx & rx & sm & si & Hm & Hd)].
  - assert (Exists (fun k => m !! k = None) config_keys) as Hex.
    { apply Exists_exists. by exists k. }
    split; [split; [done | by exists k] | left; split; [done | by exists k]].
  - assert (Forall (fun k => is_Some (m !! k)) config_keys) as Hall.
    { unfold config_keys in *. simpl in Hm.
      injection Hm as H1 H2 H3 H4 H5 H6 H7 H8.
      repeat constructor; eauto. }
    split.
    + split.
      * intros [k Hk]. rewrite Hd in Hk. discriminate Hk.
      * intros Hex. exfalso. apply Exists_exists in Hex as (k & Hk & Hnone).
        rewrite Forall_forall in Hall. destruct (Hall k Hk) as [v Hv].
        congruence.
    + right. split; [done |]. eexists. split; [exact Hd |].
      split; [by rewrite Hm | reflexivity].
Qed.

(** The specification's decoding scenario. *)
Example decodeConfig_R2 :
  exists r : Radio.t,
    decodeConfig config_R2 = Ok r
    /\ name r = VStr "R2" /\ zone r = VStr ""
    /\ state r = RadioState.Disconnected.
Proof. eexists. split; [vm_compute; reflexivity | repeat split]. Qed.

(** A dict without "sigId" raises the [KeyError] of that key. *)
Example decodeConfig_missing_sigId :
  decodeConfig (delete "sigId" config_R2) = Raise (KeyError "sigId").
Proof. vm_compute. reflexivity. Qed.

(** The specification's scenarios for the status queries. *)
Example getState_Transmitting :
  getState (set_state RadioState.Transmitting radio_R1)
  = ((RadioState.Transmitting, "Transmitting"),
     set_state RadioState.Transmitting radio_R1).
Proof. reflexivity. Qed.

Example encodeClientStatus_ReceiveError :
  let d := (encodeClientStatus (set_state RadioState.ReceiveError radio_R1)).1 in
  d !! "state" = Some (VStr "Error")
  /\ d !! "errorText" = Some (VStr "Receive Error")
  /\ d !! "error" = Some (VBool true).
Proof. repeat split. Qed.

(** The round trip forgets the status of a busy Radio. *)
Example decodeConfig_encodeConfig_busy :
  decodeConfig (encodeConfig radio_busy).1
  = Ok (__init__ (VStr "Base") (Some (VStr "Base station"))
          (Some (VStr "SB9600-XTL-O")) (Some (VStr "/dev/ttyUSB0"))
          (Some (VInt 3)) (Some (VInt 4)) (Some (VStr "MDC"))
          (Some (VList [VInt 1; VStr "a"]))).
Proof. vm_compute. reflexivity. Qed.

(** ** More on the client status *)

(** X1: the keys of the dict of [encodeClientStatus] are the twelve
    client keys, whatever the Radio holds; of the config attributes only
    the name is sent. *)
Theorem encodeClientStatus_keys (r : Radio.t) :
  dom (encodeClientStatus r).1 = list_to_set client_keys
  /\ Forall (fun k => (encodeClientStatus r).1 !! k = None) config_only_keys.
Proof.
  split.
  - radio_cases r; unfold encodeClientStatus, dict_display, client_keys;
      simpl; rewrite !dom_insert_L, dom_empty_L; set_solver.
  - radio_cases r; unfold config_only_keys; repeat constructor.
Qed.

(** X2: nine keys of the client status hold the attribute of the Radio
    as it is, of whatever type; the key "error" holds the flag that the
    call has just computed from the state, not the attribute as it was
    before the call. *)
Theorem encodeClientStatus_values (r : Radio.t) :
  (fun k => (encodeClientStatus r).1 !! k) <$> client_copied_keys
    = Some <$> client_copied_fields r
  /\ (encodeClientStatus r).1 !! "error"
     = Some (VBool (10 <=? RadioState.value (state r))).
Proof. radio_cases r; split; reflexivity. Qed.

(** X3: in every client status the three keys that describe the state
    agree: "error" is [True] exactly when "state" is "Error", and exactly
    when "errorText" is not the empty string. *)
Theorem encodeClientStatus_consistent (r : Radio.t) :
  let d := (encodeClientStatus r).1 in
  (d !! "error" = Some (VBool true) /\ d !! "state" = Some (VStr "Error")
   /\ d !! "errorText" <> Some (VStr ""))
  \/ (d !! "error" = Some (VBool false) /\ d !! "state" <> Some (VStr "Error")
      /\ d !! "errorText" = Some (VStr "")).
Proof.
  intros d. subst d.
  radio_cases r;
    ((left; split; [reflexivity | split; [reflexivity |]])
     || (right; split; [reflexivity | split; [| reflexivity]]));
    intros H; vm_compute in H; discriminate H.
Qed.

(** X4: neither status query reads the [error] attribute: whatever was
    stored in it before the call, the result and the object after the
    call are the same. *)
Theorem status_queries_ignore_error (v : pyval) (r : Radio.t) :
  getState (set_error v r) = getState r
  /\ encodeClientStatus (set_error v r) = encodeClientStatus r.
Proof. radio_cases r; split; reflexivity. Qed.

(** X5: [encodeClientStatus] called again on the object it left behind
    returns the same dict and leaves the same object. *)
Theorem encodeClientStatus_idempotent (r : Radio.t) :
  encodeClientStatus (encodeClientStatus r).2 = encodeClientStatus r.
Proof. radio_cases r; reflexivity. Qed.

(** X6: the label of [getState] tells the members apart: two Radios that
    get the same label hold the same state. *)
Theorem getState_label_injective (r r' : Radio.t) :
  (getState r).1.2 = (getState r').1.2 -> state r = state r'.
Proof.
  rewrite !getState_label.
  destruct (state r), (state r'); simpl; intros H;
    first [reflexivity | discriminate H].
Qed.

Lemma getState_label_injective_witness :
  (getState radio_busy).1.2
    = (getState (set_state RadioState.ReceiveError radio_R1)).1.2
  /\ state radio_busy = state (set_state RadioState.ReceiveError radio_R1).
Proof.
  assert ((getState radio_busy).1.2
          = (getState (set_state RadioState.ReceiveError radio_R1)).1.2) as H
    by reflexivity.
  split; [exact H |].
  apply (getState_label_injective radio_busy
           (set_state RadioState.ReceiveError radio_R1)).
  exact H.
Defined.



(** X8: the texts a client can receive. The key "state" holds one of
    "Disconnected", "Receiving", "Transmitting" and "Error"; the key
    "errorText" holds the empty string or one of the four error labels. *)
Theorem encodeClientStatus_texts (r : Radio.t) :
  (encodeClientStatus r).1 !! "state"
    ∈ (fun s => Some (VStr s))
        <$> ["Disconnected"; "Receiving"; "Transmitting"; "Error"]
  /\ (encodeClientStatus r).1 !! "errorText"
       ∈ (fun s => Some (VStr s))
           <$> [""; "Connection Error"; "Transmit Error"; "Receive Error";
                "Unknown Error"].
Proof.
  radio_cases r; split;
    match goal with
    | |- ?x ∈ _ => let y := eval vm_compute in x in change x with y
    end;
    simpl; set_solver.
Qed.

(** ** More on the configuration *)

(** X9: the key of the [KeyError] is the first of the eight config keys,
    in the order name, desc, ctrlMode, ctrlPort, txDevice, rxDevice,
    sigMode, sigId, that the dict does not have; [decodeConfig] returns
    exactly when there is no such key. *)
Theorem decodeConfig_first_missing (m : gmap string pyval) :
  (forall k, decodeConfig m = Raise (KeyError k) <-> first_missing m = Some k)
  /\ ((exists r, decodeConfig m = Ok r) <-> first_missing m = None).
Proof.
  unfold decodeConfig, first_missing, config_keys. simpl.
  repeat match goal with
  | |- context [getitem m ?k] =>
      let E := fresh "E" in
      destruct (m !! k) eqn:E;
        [ rewrite (getitem_Some _ _ _ E);
          rewrite (bool_decide_eq_false_2 (Some _ = None)) by discriminate;
          simpl
        | rewrite (getitem_None _ _ E);
          rewrite (bool_decide_eq_true_2 (None = None)) by reflexivity;
          simpl; split;
          [ intros k'; split; intros H; injection H as <-; reflexivity
          | split; [intros [r H]; discriminate H | intros H; discriminate H] ] ]
  end.
  split.
  - intros k'. split; intros H; discriminate H.
  - split; [reflexivity | intros _; eexists; reflexivity].
Qed.

(** X10: [decodeConfig] reads the eight config keys and nothing else: two
    dicts that agree on them are decoded alike, whatever other keys
    either of them has. *)
Theorem decodeConfig_only_config_keys (m1 m2 : gmap string pyval) :
  (fun k => m1 !! k) <$> config_keys = (fun k => m2 !! k) <$> config_keys ->
  decodeConfig m1 = decodeConfig m2.
Proof.
  unfold config_keys. simpl. intros H.
  injection H as H1 H2 H3 H4 H5 H6 H7 H8.
  unfold decodeConfig, getitem.
  by rewrite H1, H2, H3, H4, H5, H6, H7, H8.
Qed.

Lemma decodeConfig_only_config_keys_witness :
  (fun k => config_R2_zone !! k) <$> config_keys
    = (fun k => config_R2 !! k) <$> config_keys
  /\ decodeConfig config_R2_zone = decodeConfig config_R2.
Proof.
  assert ((fun k => config_R2_zone !! k) <$> config_keys
          = (fun k => config_R2 !! k) <$> config_keys) as H
    by (vm_compute; reflexivity).
  split; [exact H |].
  apply (decodeConfig_only_config_keys config_R2_zone config_R2). exact H.
Defined.

(** What the dict of [encodeConfig] holds at any key, for a Radio that
    [decodeConfig] built from a dict. *)
Lemma encodeConfig_decodeConfig_lookup (m : gmap string pyval) (r : Radio.t)
    (k : string) :
  decodeConfig m = Ok r ->
  (encodeConfig r).1 !! k = if decide (k ∈ config_keys) then m !! k else None.
Proof.
  intros Hr.
  destruct (decodeConfig_cases m)
    as [(k' & _ & _ & Hd) | (n & d & cm & cp & tx & rx & sm & si & Hm & Hd)];
    rewrite Hd in Hr; [discriminate Hr |].
  injection Hr as <-.
  unfold config_keys in *. simpl in Hm.
  injection Hm as H1 H2 H3 H4 H5 H6 H7 H8.
  unfold encodeConfig, dict_display. simpl.
  case_decide as Hk.
  - repeat (apply elem_of_cons in Hk; destruct Hk as [-> | Hk];
            [by simplify_map_eq |]).
    by apply elem_of_nil in Hk.
  - rewrite !lookup_insert_ne, lookup_empty; [done | ..];
      intros <-; apply Hk; set_solver.
Qed.

(** X11: the round trip from the dict side. Encoding the Radio that
    [decodeConfig] built from a dict gives back the dict cut down to the
    eight config keys: the values as they were, the other keys gone. *)
Theorem encodeConfig_decodeConfig (m : gmap string pyval) (r : Radio.t) :
  decodeConfig m = Ok r ->
  (encodeConfig r).1 = filter (fun kv => kv.1 ∈ config_keys) m.
Proof.
  intros Hr. apply map_eq. intros k.
  rewrite (encodeConfig_decodeConfig_lookup m r k Hr).
  case_decide as Hk.
  - destruct (m !! k) as [v |] eqn:E; symmetry.
    + by apply map_lookup_filter_Some.
    + apply map_lookup_filter_None. left. exact E.
  - symmetry. apply map_lookup_filter_None. right. intros v _. exact Hk.
Qed.

Lemma encodeConfig_decodeConfig_witness :
  exists r : Radio.t,
    decodeConfig config_R2_zone = Ok r
    /\ (encodeConfig r).1
       = filter (fun kv => kv.1 ∈ config_keys) config_R2_zone.
Proof.
  eexists. split; [vm_compute; reflexivity |].
  apply (encodeConfig_decodeConfig config_R2_zone).
  vm_compute. reflexivity.
Defined.

(** X12: a dict with the eight config keys and no other is a fixed point
    of decoding and encoding again. *)
Theorem encodeConfig_decodeConfig_exact (m : gmap string pyval)
    (r : Radio.t) :
  decodeConfig m = Ok r ->
  dom m = list_to_set config_keys ->
  (encodeConfig r).1 = m.
Proof.
  intros Hr Hdom. apply map_eq. intros k.
  rewrite (encodeConfig_decodeConfig_lookup m r k Hr).
  case_decide as Hk; [done |].
  symmetry. apply not_elem_of_dom. rewrite Hdom. set_solver.
Qed.

Lemma encodeConfig_decodeConfig_exact_witness :
  exists r : Radio.t,
    decodeConfig config_R2 = Ok r /\ (encodeConfig r).1 = config_R2.
Proof.
  eexists. split; [vm_compute; reflexivity |].
  apply (encodeConfig_decodeConfig_exact config_R2).
  - vm_compute. reflexivity.
  - unfold config_R2, dict_display, config_keys. simpl.
    rewrite !dom_insert_L, dom_empty_L. set_solver.
Defined.

(** X13: decoding the encoding of a Radio gives back that very Radio
    exactly when its status attributes and its state are the defaults. *)
Theorem decodeConfig_encodeConfig_same (r : Radio.t) :
  decodeConfig (encodeConfig r).1 = Ok r <-> status_fields r = status_defaults.
Proof.
  destruct r. unfold status_fields, status_defaults. simpl. split.
  - intros H. vm_compute in H. injection H as <- <- <- <- <- <- <- <- <- <-.
    reflexivity.
  - intros H. injection H as -> -> -> -> -> -> -> -> -> ->. reflexivity.
Qed.

(** X14: a client status is no config: [decodeConfig] of the dict of
    [encodeClientStatus] finds the name and raises the [KeyError] of
    "desc", for every Radio. *)
Theorem decodeConfig_encodeClientStatus (r : Radio.t) :
  decodeConfig (encodeClientStatus r).1 = Raise (KeyError "desc").
Proof. radio_cases r; reflexivity. Qed.
